(** * Simple daily schedule of the OpenTRV V0p2 valve controller

    Shallow embedding of [Arduino/V0p2_Main/Schedule.cpp] and the
    properties of its schedule store, window calculator and window
    queries.

    The target is an 8-bit AVR: [uint8_t] is 8 bits wide, [int] and
    [uint_least16_t] are 16 bits wide.  Integers are modelled as [Z] with
    every narrowing conversion written out.  The EEPROM is a finite map
    from addresses to bytes in which an absent cell is an erased one and
    reads as 0xFF.

    The embedding is of the build with [UNIT_TESTS] defined, in which the
    schedule override exists; with the override at its default the three
    queries are those of the production build. *)

From Stdlib Require Import ZArith Lia Bool.
From Stdlib Require Import Strings.Byte.
From stdpp Require Import base option list gmap.

Local Open Scope Z_scope.

(** ** Machine integers *)

Definition to_uint8 (x : Z) : Z := x mod 256.
Definition to_uint16 (x : Z) : Z := x mod 65536.

Definition byte_to_Z (b : byte) : Z := Z.of_N (Byte.to_N b).
Definition byte_of_Z (v : Z) : byte :=
  default x00 (Byte.of_N (Z.to_N (to_uint8 v))).

(** ** Build configuration

    [Schedule.cpp] is compiled against constants and predicates declared
    in [Schedule.h], [Control.h] and the OTV0P2BASE headers.  They are the
    fields of a [Config]; the field names are the names the source uses. *)

Record Config := {
  SIMPLE_SCHEDULE_GRANULARITY_MINS : Z;
  MAX_SIMPLE_SCHEDULES : Z;
  LEARNED_ON_PERIOD_M : Z;
  LEARNED_ON_PERIOD_COMFORT_M : Z;
  V0P2BASE_EE_START_SIMPLE_SCHEDULE0_ON : Z;
  (* [#ifdef LEARN_BUTTON_AVAILABLE] *)
  LEARN_BUTTON_AVAILABLE : bool;
  (* classification of a WARM target temperature, from [Control.h] *)
  isEcoTemperature : Z -> bool;
  isComfortTemperature : Z -> bool
}.

(** [OTV0P2BASE::MINS_PER_DAY] *)
Definition MINS_PER_DAY : Z := 1440.

(** The value [~0] returned through [uint_least16_t]. *)
Definition INVALID : Z := to_uint16 (Z.lnot 0).

(** [enum _TEST_schedule_override]; the value 0 means no override. *)
Inductive _TEST_schedule_override :=
  | _soUT_normal
  | _soUT_off
  | _soUT_soon
  | _soUT_now.

(** ** Program state

    The persisted bytes, the file-static override of the unit-test build,
    and what the two external collaborators answer when asked: the WARM
    target temperature ([getWARMTargetC]) and the local time of day
    ([OTV0P2BASE::getMinutesSinceMidnightLT]). *)

Record State := {
  eeprom : gmap Z byte;
  _soUT_override : _TEST_schedule_override;
  WARMTargetC : Z;
  minutesSinceMidnightLT : Z
}.

Definition with_eeprom (st : State) (e : gmap Z byte) : State :=
  {| eeprom := e;
     _soUT_override := _soUT_override st;
     WARMTargetC := WARMTargetC st;
     minutesSinceMidnightLT := minutesSinceMidnightLT st |}.

Definition _TEST_set_schedule_override
    (override : _TEST_schedule_override) (st : State) : State :=
  {| eeprom := eeprom st;
     _soUT_override := override;
     WARMTargetC := WARMTargetC st;
     minutesSinceMidnightLT := minutesSinceMidnightLT st |}.

(** ** Storage adapter *)

(** [eeprom_read_byte] of avr-libc: an erased cell reads as 0xFF. *)
Definition eeprom_read_byte (e : gmap Z byte) (p : Z) : Z :=
  match e !! p with
  | Some b => byte_to_Z b
  | None => 255
  end.

(** Modelled from the spec: [OTV0P2BASE::eeprom_smart_update_byte] is not
    part of this file.  The wear-minimising write stores the value and
    leaves the store alone when the cell already holds it. *)
Definition eeprom_smart_update_byte (e : gmap Z byte) (p : Z) (value : Z)
    : gmap Z byte :=
  if eeprom_read_byte e p =? to_uint8 value then e
  else <[p := byte_of_Z value]> e.

(** Modelled from the spec: [OTV0P2BASE::eeprom_smart_erase_byte] is not
    part of this file.  The wear-minimising erase restores the
    unprogrammed value 0xFF and leaves the store alone when the cell is
    already unprogrammed. *)
Definition eeprom_smart_erase_byte (e : gmap Z byte) (p : Z) : gmap Z byte :=
  if eeprom_read_byte e p =? 255 then e
  else <[p := xff]> e.

Section Schedule.

Variable cfg : Config.

Abbreviation G := (SIMPLE_SCHEDULE_GRANULARITY_MINS cfg).
Abbreviation slot_addr which :=
  (V0P2BASE_EE_START_SIMPLE_SCHEDULE0_ON cfg + which).

(** Maximum mins-after-midnight compacted value in one byte. *)
Definition MAX_COMPRESSED_MINS_AFTER_MIDNIGHT : Z :=
  to_uint8 (MINS_PER_DAY / G - 1).

Definition getWARMTargetC (st : State) : Z := to_uint8 (WARMTargetC st).

(** Number of minutes of schedule on time to use, as a [uint8_t]. *)
Definition onTime (st : State) : Z :=
  if LEARNED_ON_PERIOD_M cfg =? LEARNED_ON_PERIOD_COMFORT_M cfg then
    to_uint8 (LEARNED_ON_PERIOD_M cfg)
  else
    let wt := getWARMTargetC st in
    if isEcoTemperature cfg wt then to_uint8 (LEARNED_ON_PERIOD_M cfg)
    else if isComfortTemperature cfg wt then
      to_uint8 (LEARNED_ON_PERIOD_COMFORT_M cfg)
    else
      to_uint8
        ((LEARNED_ON_PERIOD_M cfg + LEARNED_ON_PERIOD_COMFORT_M cfg) / 2).

(** Pre-warm time before the scheduled WARM period. *)
Definition PREWARM_MINS : Z :=
  to_uint8 (Z.max 30 (G + LEARNED_ON_PERIOD_M cfg / 2)).

(** Setback period before the WARM period. *)
Definition PREPREWARM_MINS : Z := to_uint8 (3 * (PREWARM_MINS / 2)).

Definition getSimpleScheduleOn (st : State) (which : Z) : Z :=
  if MAX_SIMPLE_SCHEDULES cfg <=? which then INVALID
  else
    let startMM := eeprom_read_byte (eeprom st) (slot_addr which) in
    if MAX_COMPRESSED_MINS_AFTER_MIDNIGHT <? startMM then INVALID
    else
      let startTime := to_uint16 (G * startMM) in
      if LEARN_BUTTON_AVAILABLE cfg then
        let windBackM := PREWARM_MINS in
        let startTime :=
          if startTime <? windBackM then to_uint16 (startTime + MINS_PER_DAY)
          else startTime in
        to_uint16 (startTime - windBackM)
      else startTime.

Definition getSimpleScheduleOff (st : State) (which : Z) : Z :=
  let startMins := getSimpleScheduleOn st which in
  if startMins =? INVALID then INVALID
  else
    let endTime := to_uint16 (startMins + PREWARM_MINS + onTime st) in
    if MINS_PER_DAY <=? endTime then to_uint16 (endTime - MINS_PER_DAY)
    else endTime.

Definition setSimpleSchedule
    (startMinutesSinceMidnightLT : Z) (which : Z) (st : State)
    : bool * State :=
  if MAX_SIMPLE_SCHEDULES cfg <=? which then (false, st)
  else if MINS_PER_DAY <=? startMinutesSinceMidnightLT then (false, st)
  else
    let startMM := to_uint8 (startMinutesSinceMidnightLT / G) in
    (true,
     with_eeprom st
       (eeprom_smart_update_byte (eeprom st) (slot_addr which) startMM)).

Definition clearSimpleSchedule (which : Z) (st : State) : State :=
  if MAX_SIMPLE_SCHEDULES cfg <=? which then st
  else
    with_eeprom st (eeprom_smart_erase_byte (eeprom st) (slot_addr which)).

(** The slot numbers visited by
    [for(uint8_t which = 0; which < MAX_SIMPLE_SCHEDULES; ++which)],
    in order.  The counter is a [uint8_t], so this is the loop of the
    source for slot counts up to 255. *)
Definition schedule_slots : list Z := seqZ 0 (MAX_SIMPLE_SCHEDULES cfg).

(** The scan of [isAnySimpleScheduleSet] over the remaining slots. *)
Fixpoint anySlotProgrammed (e : gmap Z byte) (slots : list Z) : bool :=
  match slots with
  | [] => false
  | which :: rest =>
      if eeprom_read_byte e (slot_addr which)
           <=? MAX_COMPRESSED_MINS_AFTER_MIDNIGHT
      then true
      else anySlotProgrammed e rest
  end.

Definition isAnySimpleScheduleSet (st : State) : bool :=
  match _soUT_override st with
  | _soUT_off => false
  | _soUT_soon => true
  | _soUT_now => true
  | _soUT_normal => anySlotProgrammed (eeprom st) schedule_slots
  end.

(** The loop shared, statement for statement, by [isAnyScheduleOnWARMNow]
    and [isAnyScheduleOnWARMSoon], over the remaining slots. *)
Fixpoint anyScheduleCovers (st : State) (mm : Z) (slots : list Z) : bool :=
  match slots with
  | [] => false
  | which :: rest =>
      let s := getSimpleScheduleOn st which in
      if mm <? s then anyScheduleCovers st mm rest
      else
        let e := getSimpleScheduleOff st which in
        let e := if e <? s then to_uint16 (e + MINS_PER_DAY) else e in
        if mm <? e then true else anyScheduleCovers st mm rest
  end.

Definition isAnyScheduleOnWARMNow (st : State) : bool :=
  match _soUT_override st with
  | _soUT_off => false
  | _soUT_soon => false
  | _soUT_now => true
  | _soUT_normal =>
      let mm := to_uint16 (minutesSinceMidnightLT st) in
      anyScheduleCovers st mm schedule_slots
  end.

Definition isAnyScheduleOnWARMSoon (st : State) : bool :=
  match _soUT_override st with
  | _soUT_off => false
  | _soUT_soon => true
  | _soUT_now => false
  | _soUT_normal =>
      let mm0 := to_uint16 (minutesSinceMidnightLT st + PREPREWARM_MINS) in
      let mm :=
        if MINS_PER_DAY <=? mm0 then to_uint16 (mm0 - MINS_PER_DAY) else mm0 in
      anyScheduleCovers st mm schedule_slots
  end.

(** The stored byte of a slot, as [getSimpleScheduleOn] reads it. *)
Definition stored (st : State) (which : Z) : Z :=
  eeprom_read_byte (eeprom st) (slot_addr which).

End Schedule.

(** ** Concrete builds and states used to exercise the model *)

(** A build reproducing the figures quoted in the source comments: with a
    60 minute on-period the pre-warm is 36 minutes and the setback 54. *)
Definition reference_config : Config :=
  {| SIMPLE_SCHEDULE_GRANULARITY_MINS := 6;
     MAX_SIMPLE_SCHEDULES := 2;
     LEARNED_ON_PERIOD_M := 60;
     LEARNED_ON_PERIOD_COMFORT_M := 120;
     V0P2BASE_EE_START_SIMPLE_SCHEDULE0_ON := 8;
     LEARN_BUTTON_AVAILABLE := true;
     isEcoTemperature := fun wt => wt <=? 17;
     isComfortTemperature := fun wt => 21 <=? wt |}.

(** The same build with other granularity and on-periods. *)
Definition build (granularity on_period comfort_period : Z) : Config :=
  {| SIMPLE_SCHEDULE_GRANULARITY_MINS := granularity;
     MAX_SIMPLE_SCHEDULES := 2;
     LEARNED_ON_PERIOD_M := on_period;
     LEARNED_ON_PERIOD_COMFORT_M := comfort_period;
     V0P2BASE_EE_START_SIMPLE_SCHEDULE0_ON := 8;
     LEARN_BUTTON_AVAILABLE := true;
     isEcoTemperature := fun wt => wt <=? 17;
     isComfortTemperature := fun wt => 21 <=? wt |}.

(** A state without override, at time of day [now]. *)
Definition state_at (e : gmap Z byte) (now : Z) : State :=
  {| eeprom := e;
     _soUT_override := _soUT_normal;
     WARMTargetC := 19;
     minutesSinceMidnightLT := now |}.

(** The clock of the state moved to [now], everything else kept. *)
Definition at_minute (st : State) (now : Z) : State :=
  {| eeprom := eeprom st;
     _soUT_override := _soUT_override st;
     WARMTargetC := WARMTargetC st;
     minutesSinceMidnightLT := now |}.

(** Slot 0 programmed with the compressed value [v], slot 1 erased. *)
Definition slot0_only (v : Z) : gmap Z byte := {[ 8 := byte_of_Z v ]}.

(** The reference build compiled without the learn button. *)
Definition plain_build : Config :=
  {| SIMPLE_SCHEDULE_GRANULARITY_MINS := 6;
     MAX_SIMPLE_SCHEDULES := 2;
     LEARNED_ON_PERIOD_M := 60;
     LEARNED_ON_PERIOD_COMFORT_M := 120;
     V0P2BASE_EE_START_SIMPLE_SCHEDULE0_ON := 8;
     LEARN_BUTTON_AVAILABLE := false;
     isEcoTemperature := fun wt => wt <=? 17;
     isComfortTemperature := fun wt => 21 <=? wt |}.

(** Reduce the projections of a concrete build, then decide. *)
Ltac concrete :=
  unfold MINS_PER_DAY; cbn;
  first [reflexivity | lia | vm_compute; first [reflexivity | discriminate]].

(** ** Machine integers and bytes *)

Lemma to_uint8_range x : 0 <= to_uint8 x <= 255.
Proof. unfold to_uint8. pose proof (Z.mod_pos_bound x 256). lia. Qed.

Lemma to_uint8_small x : 0 <= x <= 255 -> to_uint8 x = x.
Proof. intros H. unfold to_uint8. apply Z.mod_small. lia. Qed.

Lemma to_uint16_small x : 0 <= x <= 65535 -> to_uint16 x = x.
Proof. intros H. unfold to_uint16. apply Z.mod_small. lia. Qed.

Lemma INVALID_value : INVALID = 65535.
Proof. reflexivity. Qed.

Lemma byte_to_Z_range b : 0 <= byte_to_Z b <= 255.
Proof. unfold byte_to_Z. pose proof (Byte.to_N_bounded b). lia. Qed.

Lemma byte_to_of_Z v : byte_to_Z (byte_of_Z v) = to_uint8 v.
Proof.
  unfold byte_to_Z, byte_of_Z.
  pose proof (to_uint8_range v) as Hr.
  destruct (Byte.of_N (Z.to_N (to_uint8 v))) as [b|] eqn:E; simpl.
  - apply Byte.to_of_N_iff in E. rewrite E. lia.
  - apply Byte.of_N_None_iff in E. lia.
Qed.

(** ** The storage adapter *)

Lemma eeprom_read_byte_range e p : 0 <= eeprom_read_byte e p <= 255.
Proof.
  unfold eeprom_read_byte. destruct (e !! p).
  - apply byte_to_Z_range.
  - lia.
Qed.

Lemma eeprom_read_update_eq e p v :
  eeprom_read_byte (eeprom_smart_update_byte e p v) p = to_uint8 v.
Proof.
  unfold eeprom_smart_update_byte.
  destruct (Z.eqb_spec (eeprom_read_byte e p) (to_uint8 v)) as [E|E].
  - exact E.
  - unfold eeprom_read_byte. rewrite lookup_insert_eq. apply byte_to_of_Z.
Qed.

Lemma eeprom_read_update_ne e p q v :
  p <> q ->
  eeprom_read_byte (eeprom_smart_update_byte e p v) q = eeprom_read_byte e q.
Proof.
  intros Hne. unfold eeprom_smart_update_byte.
  destruct (eeprom_read_byte e p =? to_uint8 v); [reflexivity|].
  unfold eeprom_read_byte. now rewrite lookup_insert_ne.
Qed.

Lemma eeprom_read_erase_eq e p :
  eeprom_read_byte (eeprom_smart_erase_byte e p) p = 255.
Proof.
  unfold eeprom_smart_erase_byte.
  destruct (Z.eqb_spec (eeprom_read_byte e p) 255) as [E|E].
  - exact E.
  - unfold eeprom_read_byte. now rewrite lookup_insert_eq.
Qed.

Lemma eeprom_read_erase_ne e p q :
  p <> q ->
  eeprom_read_byte (eeprom_smart_erase_byte e p) q = eeprom_read_byte e q.
Proof.
  intros Hne. unfold eeprom_smart_erase_byte.
  destruct (eeprom_read_byte e p =? 255); [reflexivity|].
  unfold eeprom_read_byte. now rewrite lookup_insert_ne.
Qed.

Section Properties.

Variable cfg : Config.

Abbreviation G := (SIMPLE_SCHEDULE_GRANULARITY_MINS cfg).
Abbreviation SLOTS := (MAX_SIMPLE_SCHEDULES cfg).
Abbreviation slot_addr which :=
  (V0P2BASE_EE_START_SIMPLE_SCHEDULE0_ON cfg + which).
Abbreviation MAXC := (MAX_COMPRESSED_MINS_AFTER_MIDNIGHT cfg).
Abbreviation PREWARM := (PREWARM_MINS cfg).

(** ** Derived constants *)

Lemma MAX_COMPRESSED_bound :
  1 <= G <= MINS_PER_DAY ->
  0 <= MAXC <= MINS_PER_DAY / G - 1.
Proof.
  intros HG. unfold MAX_COMPRESSED_MINS_AFTER_MIDNIGHT, to_uint8, MINS_PER_DAY in *.
  assert (1 <= 1440 / G) by (apply Z.div_le_lower_bound; lia).
  split.
  - apply Z.mod_pos_bound. lia.
  - apply Z.mod_le; lia.
Qed.

Lemma anchor_in_day b :
  1 <= G <= MINS_PER_DAY ->
  0 <= b <= MAXC ->
  0 <= G * b <= MINS_PER_DAY - G.
Proof.
  intros HG Hb. pose proof (MAX_COMPRESSED_bound HG) as HM.
  assert (G * (MINS_PER_DAY / G) <= MINS_PER_DAY)
    by (apply Z.mul_div_le; lia).
  nia.
Qed.

Lemma PREWARM_MINS_range : 0 <= PREWARM <= 255.
Proof. apply to_uint8_range. Qed.

Lemma onTime_range st : 0 <= onTime cfg st <= 255.
Proof.
  unfold onTime.
  repeat match goal with |- context [if ?c then _ else _] => destruct c end;
    apply to_uint8_range.
Qed.

(** ** The window calculator *)

Lemma getSimpleScheduleOn_rejects st which :
  SLOTS <= which \/ MAXC < stored cfg st which ->
  getSimpleScheduleOn cfg st which = INVALID.
Proof.
  intros H. unfold getSimpleScheduleOn, stored in *.
  destruct (Z.leb_spec SLOTS which); [reflexivity|].
  destruct (Z.ltb_spec MAXC
              (eeprom_read_byte (eeprom st) (slot_addr which)));
    [reflexivity|lia].
Qed.

(** What [getSimpleScheduleOn] computes for a programmed slot of a build
    with the learn button: the decoded anchor wound back by the pre-warm,
    a day added first when the anchor is earlier than the pre-warm. *)
Lemma getSimpleScheduleOn_programmed st which :
  1 <= G <= MINS_PER_DAY ->
  LEARN_BUTTON_AVAILABLE cfg = true ->
  which < SLOTS ->
  stored cfg st which <= MAXC ->
  getSimpleScheduleOn cfg st which =
    if G * stored cfg st which <? PREWARM
    then G * stored cfg st which + MINS_PER_DAY - PREWARM
    else G * stored cfg st which - PREWARM.
Proof.
  intros HG HL Hw Hs. unfold getSimpleScheduleOn, stored in *.
  set (b := eeprom_read_byte (eeprom st) (slot_addr which)) in *.
  assert (0 <= b <= 255) as Hb by apply eeprom_read_byte_range.
  assert (0 <= G * b <= MINS_PER_DAY - G) as Ha
    by (apply anchor_in_day; lia).
  pose proof PREWARM_MINS_range as HP. unfold MINS_PER_DAY in *.
  destruct (Z.leb_spec SLOTS which); [lia|].
  destruct (Z.ltb_spec MAXC b); [lia|].
  rewrite HL. rewrite (to_uint16_small (G * b)) by lia.
  destruct (Z.ltb_spec (G * b) PREWARM).
  - rewrite (to_uint16_small (G * b + 1440)) by lia.
    apply to_uint16_small. lia.
  - apply to_uint16_small. lia.
Qed.

Lemma getSimpleScheduleOn_plain st which :
  1 <= G <= MINS_PER_DAY ->
  LEARN_BUTTON_AVAILABLE cfg = false ->
  which < SLOTS ->
  stored cfg st which <= MAXC ->
  getSimpleScheduleOn cfg st which = G * stored cfg st which.
Proof.
  intros HG HL Hw Hs. unfold getSimpleScheduleOn, stored in *.
  set (b := eeprom_read_byte (eeprom st) (slot_addr which)) in *.
  assert (0 <= b <= 255) as Hb by apply eeprom_read_byte_range.
  assert (0 <= G * b <= MINS_PER_DAY - G) as Ha
    by (apply anchor_in_day; lia).
  unfold MINS_PER_DAY in *.
  destruct (Z.leb_spec SLOTS which); [lia|].
  destruct (Z.ltb_spec MAXC b); [lia|].
  rewrite HL. apply to_uint16_small. lia.
Qed.

(** Every answer of [getSimpleScheduleOn] is the sentinel or a minute of
    the day. *)
Lemma getSimpleScheduleOn_cases st which :
  1 <= G <= MINS_PER_DAY ->
  getSimpleScheduleOn cfg st which = INVALID \/
  0 <= getSimpleScheduleOn cfg st which < MINS_PER_DAY.
Proof.
  intros HG.
  destruct (Z.le_gt_cases SLOTS which) as [Hw|Hw].
  { left. apply getSimpleScheduleOn_rejects. now left. }
  destruct (Z.lt_ge_cases MAXC (stored cfg st which)) as [Hs|Hs].
  { left. apply getSimpleScheduleOn_rejects. now right. }
  right.
  assert (0 <= stored cfg st which <= 255) as Hb by apply eeprom_read_byte_range.
  assert (0 <= G * stored cfg st which <= MINS_PER_DAY - G) as Ha
    by (apply anchor_in_day; lia).
  pose proof PREWARM_MINS_range as HP.
  destruct (LEARN_BUTTON_AVAILABLE cfg) eqn:HL.
  - rewrite getSimpleScheduleOn_programmed by assumption.
    unfold MINS_PER_DAY in *.
    destruct (Z.ltb_spec (G * stored cfg st which) PREWARM); lia.
  - rewrite getSimpleScheduleOn_plain by assumption. lia.
Qed.

(** The sum formed by [getSimpleScheduleOff] before its reduction. *)
Lemma getSimpleScheduleOff_sum_bound st which :
  1 <= G <= MINS_PER_DAY ->
  getSimpleScheduleOn cfg st which <> INVALID ->
  0 <= getSimpleScheduleOn cfg st which + PREWARM + onTime cfg st
    < 2 * MINS_PER_DAY.
Proof.
  intros HG Hv.
  destruct (getSimpleScheduleOn_cases st which HG) as [E|R]; [contradiction|].
  pose proof PREWARM_MINS_range. pose proof (onTime_range st).
  unfold MINS_PER_DAY in *. lia.
Qed.

Lemma getSimpleScheduleOff_invalid st which :
  getSimpleScheduleOn cfg st which = INVALID ->
  getSimpleScheduleOff cfg st which = INVALID.
Proof.
  intros E. unfold getSimpleScheduleOff. rewrite E. reflexivity.
Qed.

Lemma getSimpleScheduleOff_valid st which :
  1 <= G <= MINS_PER_DAY ->
  getSimpleScheduleOn cfg st which <> INVALID ->
  getSimpleScheduleOff cfg st which =
    (getSimpleScheduleOn cfg st which + PREWARM + onTime cfg st)
      mod MINS_PER_DAY.
Proof.
  intros HG Hv.
  pose proof (getSimpleScheduleOff_sum_bound st which HG Hv) as Hs.
  unfold getSimpleScheduleOff.
  set (s := getSimpleScheduleOn cfg st which) in *.
  destruct (Z.eqb_spec s INVALID); [contradiction|].
  unfold MINS_PER_DAY in *.
  rewrite (to_uint16_small (s + PREWARM + onTime cfg st)) by lia.
  destruct (Z.leb_spec 1440 (s + PREWARM + onTime cfg st)).
  - rewrite to_uint16_small by lia.
    apply Z.mod_unique with (q := 1); lia.
  - symmetry. apply Z.mod_small. lia.
Qed.

(** ** The schedule store *)

Lemma stored_range st which : 0 <= stored cfg st which <= 255.
Proof. apply eeprom_read_byte_range. Qed.

Lemma setSimpleSchedule_accepts st minutes which :
  which < SLOTS ->
  minutes < MINS_PER_DAY ->
  setSimpleSchedule cfg minutes which st =
    (true,
     with_eeprom st
       (eeprom_smart_update_byte (eeprom st) (slot_addr which)
          (to_uint8 (minutes / G)))).
Proof.
  intros Hw Hm. unfold setSimpleSchedule.
  destruct (Z.leb_spec SLOTS which); [lia|].
  destruct (Z.leb_spec MINS_PER_DAY minutes); [lia|]. reflexivity.
Qed.

Lemma setSimpleSchedule_refuses st minutes which :
  SLOTS <= which \/ MINS_PER_DAY <= minutes ->
  setSimpleSchedule cfg minutes which st = (false, st).
Proof.
  intros H. unfold setSimpleSchedule.
  destruct (Z.leb_spec SLOTS which); [reflexivity|].
  destruct (Z.leb_spec MINS_PER_DAY minutes); [reflexivity|lia].
Qed.

Lemma compressed_fits minutes :
  6 <= G ->
  0 <= minutes < MINS_PER_DAY ->
  0 <= minutes / G <= 239.
Proof.
  intros HG Hm. unfold MINS_PER_DAY in *. split.
  - apply Z.div_pos; lia.
  - assert (minutes / G < 240); [|lia].
    apply Z.div_lt_upper_bound; lia.
Qed.

Lemma stored_after_set st minutes which :
  6 <= G ->
  which < SLOTS ->
  0 <= minutes < MINS_PER_DAY ->
  stored cfg (snd (setSimpleSchedule cfg minutes which st)) which =
    minutes / G.
Proof.
  intros HG Hw Hm.
  pose proof (compressed_fits minutes HG Hm) as Hc.
  rewrite setSimpleSchedule_accepts by lia. unfold stored.
  cbn [snd with_eeprom eeprom].
  rewrite eeprom_read_update_eq.
  rewrite (to_uint8_small (minutes / G)) by lia.
  apply to_uint8_small. lia.
Qed.

(** A slot keeps its stored byte when another address is written or
    erased. *)
Lemma stored_frame_set st minutes k p :
  p <> slot_addr k ->
  eeprom_read_byte (eeprom (snd (setSimpleSchedule cfg minutes k st))) p =
    eeprom_read_byte (eeprom st) p.
Proof.
  intros Hp. unfold setSimpleSchedule.
  destruct (SLOTS <=? k); [reflexivity|].
  destruct (MINS_PER_DAY <=? minutes); [reflexivity|].
  cbn [snd with_eeprom eeprom].
  apply eeprom_read_update_ne. congruence.
Qed.

Lemma stored_frame_clear st k p :
  p <> slot_addr k ->
  eeprom_read_byte (eeprom (clearSimpleSchedule cfg k st)) p =
    eeprom_read_byte (eeprom st) p.
Proof.
  intros Hp. unfold clearSimpleSchedule.
  destruct (SLOTS <=? k); [reflexivity|].
  cbn [with_eeprom eeprom].
  apply eeprom_read_erase_ne. congruence.
Qed.

(** [getSimpleScheduleOn] looks at one byte of the state only. *)
Lemma getSimpleScheduleOn_ext st st' which :
  stored cfg st' which = stored cfg st which ->
  getSimpleScheduleOn cfg st' which = getSimpleScheduleOn cfg st which.
Proof.
  unfold stored, getSimpleScheduleOn. intros E. rewrite E. reflexivity.
Qed.

(** ** The window queries *)

Lemma anyScheduleCovers_at_minute st now mm slots :
  anyScheduleCovers cfg (at_minute st now) mm slots =
    anyScheduleCovers cfg st mm slots.
Proof.
  induction slots as [|which rest IH]; simpl; [reflexivity|].
  rewrite IH. reflexivity.
Qed.

(** The loop answers no when the instant is before the start of every
    slot it visits. *)
Lemma anyScheduleCovers_all_later st mm slots :
  (forall j, j ∈ slots -> mm < getSimpleScheduleOn cfg st j) ->
  anyScheduleCovers cfg st mm slots = false.
Proof.
  induction slots as [|which rest IH]; intros H; simpl; [reflexivity|].
  destruct (Z.ltb_spec mm (getSimpleScheduleOn cfg st which)) as [_|Hge].
  - apply IH. intros j Hj. apply H. now apply list_elem_of_further.
  - specialize (H which (list_elem_of_here _ _)). lia.
Qed.

(** The loop answers yes at a slot that has started and whose end, moved
    a day on when it is numerically before the start, is still ahead,
    provided the other slots have not started. *)
Lemma anyScheduleCovers_hit st mm slots k :
  k ∈ slots ->
  (forall j, j ∈ slots -> j <> k -> mm < getSimpleScheduleOn cfg st j) ->
  getSimpleScheduleOn cfg st k <= mm ->
  mm < (if getSimpleScheduleOff cfg st k <? getSimpleScheduleOn cfg st k
        then to_uint16 (getSimpleScheduleOff cfg st k + MINS_PER_DAY)
        else getSimpleScheduleOff cfg st k) ->
  anyScheduleCovers cfg st mm slots = true.
Proof.
  intros Hk Hothers Hs He.
  induction slots as [|which rest IH]; [now apply elem_of_nil in Hk|].
  simpl. destruct (Z.eq_dec which k) as [->|Hne].
  - destruct (Z.ltb_spec mm (getSimpleScheduleOn cfg st k)); [lia|].
    destruct (Z.ltb_spec mm
      (if getSimpleScheduleOff cfg st k <? getSimpleScheduleOn cfg st k
       then to_uint16 (getSimpleScheduleOff cfg st k + MINS_PER_DAY)
       else getSimpleScheduleOff cfg st k)); [reflexivity|lia].
  - assert (mm < getSimpleScheduleOn cfg st which) as Hlt
      by (apply Hothers; [apply list_elem_of_here|assumption]).
    destruct (Z.ltb_spec mm (getSimpleScheduleOn cfg st which)); [|lia].
    apply IH.
    + apply elem_of_cons in Hk. destruct Hk as [->|Hk]; [contradiction|assumption].
    + intros j Hj. apply Hothers. now apply list_elem_of_further.
Qed.

(** ** Properties of the specification *)

(** C1.  Take a state without test override in which one slot has the
    effective on-time 1430 and the effective off-time 30, a window that
    wraps midnight, and no other slot is set.  The source answers
    [isAnyScheduleOnWARMNow] with true at minute 1435 and with false at
    minute 100, but at minute 10, inside the window after midnight, it
    answers false: the slot is skipped because 10 is below its on-time. *)
Theorem isAnyScheduleOnWARMNow_wrapped_window st k :
  SLOTS <= 255 ->
  _soUT_override st = _soUT_normal ->
  0 <= k < SLOTS ->
  getSimpleScheduleOn cfg st k = 1430 ->
  getSimpleScheduleOff cfg st k = 30 ->
  (forall j, j <> k -> getSimpleScheduleOn cfg st j = INVALID) ->
  isAnyScheduleOnWARMNow cfg (at_minute st 1435) = true /\
  isAnyScheduleOnWARMNow cfg (at_minute st 10) = false /\
  isAnyScheduleOnWARMNow cfg (at_minute st 100) = false.
Proof.
  intros _ Hov Hk Hon Hoff Hothers.
  assert (k ∈ schedule_slots cfg) as Hin
    by (unfold schedule_slots; apply elem_of_seqZ; lia).
  assert (forall j, 1430 <= getSimpleScheduleOn cfg st j) as Hlow.
  { intros j. destruct (Z.eq_dec j k) as [->|Hne].
    - lia.
    - rewrite (Hothers j Hne), INVALID_value. lia. }
  unfold isAnyScheduleOnWARMNow. cbn [at_minute _soUT_override minutesSinceMidnightLT].
  rewrite Hov, !anyScheduleCovers_at_minute.
  rewrite !to_uint16_small by lia.
  split; [|split].
  - apply anyScheduleCovers_hit with (k := k); try assumption.
    + intros j _ Hne. rewrite (Hothers j Hne), INVALID_value. lia.
    + lia.
    + rewrite Hon, Hoff. reflexivity.
  - apply anyScheduleCovers_all_later. intros j _. specialize (Hlow j). lia.
  - apply anyScheduleCovers_all_later. intros j _. specialize (Hlow j). lia.
Qed.

(** C2, as amended.  In a build with the learn button
    ([LEARN_BUTTON_AVAILABLE] defined) whose granularity is at least 6
    and divides the minutes of a day, for every slot [k] below
    [MAX_SIMPLE_SCHEDULES] and every minute [m] of the day,
    [setSimpleSchedule m k] succeeds and [getSimpleScheduleOn k] then
    returns [m] rounded down to the granularity, minus [PREWARM_MINS],
    with a day added when the subtraction would go negative. *)
Theorem setSimpleSchedule_getSimpleScheduleOn_roundtrip st m k :
  LEARN_BUTTON_AVAILABLE cfg = true ->
  6 <= G ->
  MINS_PER_DAY mod G = 0 ->
  0 <= k < SLOTS ->
  0 <= m < MINS_PER_DAY ->
  fst (setSimpleSchedule cfg m k st) = true /\
  getSimpleScheduleOn cfg (snd (setSimpleSchedule cfg m k st)) k =
    if m / G * G <? PREWARM
    then m / G * G + MINS_PER_DAY - PREWARM
    else m / G * G - PREWARM.
Proof.
  intros HL HG Hdiv Hk Hm.
  assert (G <= MINS_PER_DAY) as HG'.
  { unfold MINS_PER_DAY in *.
    destruct (Z.le_gt_cases G 1440); [assumption|].
    rewrite Z.mod_small in Hdiv by lia. lia. }
  pose proof (stored_after_set st m k HG (proj2 Hk) Hm) as Hst.
  pose proof (compressed_fits m HG Hm) as Hc.
  split; [rewrite setSimpleSchedule_accepts by lia; reflexivity|].
  assert (m / G <= MAXC) as Hmax.
  { unfold MAX_COMPRESSED_MINS_AFTER_MIDNIGHT.
    assert (MINS_PER_DAY = G * (MINS_PER_DAY / G)) as Hq
      by (apply Z.div_exact; lia).
    assert (m / G < MINS_PER_DAY / G)
      by (apply Z.div_lt_upper_bound; lia).
    assert (MINS_PER_DAY / G <= 240)
      by (unfold MINS_PER_DAY; apply Z.lt_succ_r;
          apply Z.div_lt_upper_bound; lia).
    rewrite to_uint8_small; lia. }
  rewrite getSimpleScheduleOn_programmed; rewrite ?Hst;
    [|lia|assumption|lia|assumption].
  rewrite (Z.mul_comm G (m / G)). reflexivity.
Qed.

(** C3, as amended.  In a build with the learn button
    ([LEARN_BUTTON_AVAILABLE] defined), for a programmed
    slot whose byte decodes to the anchor [G * byte]:
    [getSimpleScheduleOn] returns [anchor + MINS_PER_DAY - PREWARM_MINS]
    when the pre-warm exceeds the anchor (an anchor near the start of the
    day) and [anchor - PREWARM_MINS] otherwise; either way the result is
    [(anchor - PREWARM_MINS) mod MINS_PER_DAY], never negative.  For the
    anchor 1430 and a pre-warm of 40 it is 1390. *)
Theorem getSimpleScheduleOn_windback st which :
  1 <= G <= MINS_PER_DAY ->
  LEARN_BUTTON_AVAILABLE cfg = true ->
  which < SLOTS ->
  stored cfg st which <= MAXC ->
  (PREWARM > G * stored cfg st which ->
   getSimpleScheduleOn cfg st which =
     G * stored cfg st which + MINS_PER_DAY - PREWARM) /\
  (PREWARM <= G * stored cfg st which ->
   getSimpleScheduleOn cfg st which = G * stored cfg st which - PREWARM) /\
  getSimpleScheduleOn cfg st which =
    (G * stored cfg st which - PREWARM) mod MINS_PER_DAY /\
  0 <= getSimpleScheduleOn cfg st which < MINS_PER_DAY /\
  (G * stored cfg st which = 1430 -> PREWARM = 40 ->
   getSimpleScheduleOn cfg st which = 1390).
Proof.
  intros HG HL Hw Hs.
  pose proof (getSimpleScheduleOn_programmed st which HG HL Hw Hs) as E.
  pose proof (stored_range st which) as Hb.
  assert (0 <= G * stored cfg st which <= MINS_PER_DAY - G) as Ha
    by (apply anchor_in_day; lia).
  pose proof PREWARM_MINS_range as HP.
  set (anchor := G * stored cfg st which) in *.
  unfold MINS_PER_DAY in *.
  destruct (Z.ltb_spec anchor PREWARM) as [Hlt|Hge]; rewrite E.
  - repeat split; try lia.
    apply Z.mod_unique with (q := -1); lia.
  - repeat split; try lia.
    symmetry. apply Z.mod_small. lia.
Qed.

(** C4.  For every slot, [getSimpleScheduleOff] returns the invalid
    sentinel exactly when [getSimpleScheduleOn] does, and otherwise
    returns [(getSimpleScheduleOn + PREWARM_MINS + onTime()) mod
    MINS_PER_DAY], with [onTime()] read from the state at the call. *)
Theorem getSimpleScheduleOff_spec st which :
  1 <= G <= MINS_PER_DAY ->
  (getSimpleScheduleOff cfg st which = INVALID <->
   getSimpleScheduleOn cfg st which = INVALID) /\
  (getSimpleScheduleOn cfg st which <> INVALID ->
   getSimpleScheduleOff cfg st which =
     (getSimpleScheduleOn cfg st which + PREWARM + onTime cfg st)
       mod MINS_PER_DAY).
Proof.
  intros HG. split.
  - split; [|apply getSimpleScheduleOff_invalid].
    intros Hoff.
    destruct (Z.eq_dec (getSimpleScheduleOn cfg st which) INVALID) as [E|Hv];
      [assumption|].
    rewrite (getSimpleScheduleOff_valid st which HG Hv) in Hoff.
    pose proof (Z.mod_pos_bound
      (getSimpleScheduleOn cfg st which + PREWARM + onTime cfg st)
      MINS_PER_DAY) as Hb.
    rewrite INVALID_value in Hoff. unfold MINS_PER_DAY in *. lia.
  - apply getSimpleScheduleOff_valid. assumption.
Qed.

(** C5.  With a granularity of at least 6, so that a compressed time fits
    a byte, and an unsigned [minutes]: [setSimpleSchedule minutes which]
    returns false and leaves the state, hence every persisted byte,
    unchanged if and only if [which >= MAX_SIMPLE_SCHEDULES] or
    [minutes >= MINS_PER_DAY]; for every other input it returns true and
    the byte of slot [which] then holds [minutes / G] rounded down. *)
Theorem setSimpleSchedule_rejects_iff st minutes which :
  6 <= G ->
  0 <= minutes ->
  (fst (setSimpleSchedule cfg minutes which st) = false /\
   snd (setSimpleSchedule cfg minutes which st) = st <->
   SLOTS <= which \/ MINS_PER_DAY <= minutes) /\
  (~ (SLOTS <= which \/ MINS_PER_DAY <= minutes) ->
   fst (setSimpleSchedule cfg minutes which st) = true /\
   stored cfg (snd (setSimpleSchedule cfg minutes which st)) which =
     minutes / G).
Proof.
  intros HG Hm. split; [split|].
  - intros [Hf _].
    destruct (Z.le_gt_cases SLOTS which); [now left|].
    destruct (Z.le_gt_cases MINS_PER_DAY minutes); [now right|].
    rewrite setSimpleSchedule_accepts in Hf by assumption. discriminate.
  - intros H. rewrite setSimpleSchedule_refuses by assumption. now split.
  - intros H. split.
    + rewrite setSimpleSchedule_accepts by lia. reflexivity.
    + apply stored_after_set; lia.
Qed.

(** C6.  [getSimpleScheduleOn] returns the invalid sentinel whenever the
    slot number is not below [MAX_SIMPLE_SCHEDULES], or the stored byte of
    the slot exceeds [MAX_COMPRESSED_MINS_AFTER_MIDNIGHT], or the stored
    byte is the unprogrammed 0xFF (for any granularity from 1 to the
    minutes of a day). *)
Theorem getSimpleScheduleOn_invalid st which :
  SLOTS <= which \/
  MAXC < stored cfg st which \/
  (1 <= G <= MINS_PER_DAY /\ stored cfg st which = 255) ->
  getSimpleScheduleOn cfg st which = INVALID /\ INVALID = 65535.
Proof.
  intros H. split; [|reflexivity].
  apply getSimpleScheduleOn_rejects.
  destruct H as [H|[H|[HG H]]]; [now left|now right|right].
  pose proof (MAX_COMPRESSED_bound HG) as Hm.
  assert (MINS_PER_DAY / G <= 1440)
    by (unfold MINS_PER_DAY; apply Z.lt_succ_r;
        apply Z.div_lt_upper_bound; lia).
  assert (MAXC <= 255) by apply to_uint8_range.
  destruct (Z.eq_dec MAXC 255) as [E|Hne]; [|lia].
  exfalso. unfold MAX_COMPRESSED_MINS_AFTER_MIDNIGHT, to_uint8 in E.
  set (q := MINS_PER_DAY / G) in *.
  assert (1 <= q) by (apply Z.div_le_lower_bound; lia).
  assert (G * q <= MINS_PER_DAY) by (apply Z.mul_div_le; lia).
  assert (MINS_PER_DAY < G * (q + 1)).
  { unfold q. pose proof (Z.mod_pos_bound MINS_PER_DAY G).
    pose proof (Z.div_mod MINS_PER_DAY G). lia. }
  pose proof (Z.div_mod (q - 1) 256) as Hd. rewrite E in Hd.
  assert (0 <= (q - 1) / 256 <= 5).
  { split; [apply Z.div_pos; lia|].
    apply Z.lt_succ_r. apply Z.div_lt_upper_bound; lia. }
  unfold MINS_PER_DAY in *.
  assert ((q - 1) / 256 = 0 \/ (q - 1) / 256 = 1 \/ (q - 1) / 256 = 2 \/
          (q - 1) / 256 = 3 \/ (q - 1) / 256 = 4 \/ (q - 1) / 256 = 5)
    as Hcase by lia.
  destruct Hcase as [C|[C|[C|[C|[C|C]]]]]; rewrite C in Hd; nia.
Qed.

(** C7.  With the test override set, the three queries answer from a
    fixed table whatever the persisted bytes, the policy and the clock
    are: off gives (false, false, false), soon gives (true, false, true),
    now gives (true, true, false), in the order [isAnySimpleScheduleSet],
    [isAnyScheduleOnWARMNow], [isAnyScheduleOnWARMSoon]. *)
Theorem override_truth_table st :
  (isAnySimpleScheduleSet cfg (_TEST_set_schedule_override _soUT_off st),
   isAnyScheduleOnWARMNow cfg (_TEST_set_schedule_override _soUT_off st),
   isAnyScheduleOnWARMSoon cfg (_TEST_set_schedule_override _soUT_off st))
    = (false, false, false) /\
  (isAnySimpleScheduleSet cfg (_TEST_set_schedule_override _soUT_soon st),
   isAnyScheduleOnWARMNow cfg (_TEST_set_schedule_override _soUT_soon st),
   isAnyScheduleOnWARMSoon cfg (_TEST_set_schedule_override _soUT_soon st))
    = (true, false, true) /\
  (isAnySimpleScheduleSet cfg (_TEST_set_schedule_override _soUT_now st),
   isAnyScheduleOnWARMNow cfg (_TEST_set_schedule_override _soUT_now st),
   isAnyScheduleOnWARMSoon cfg (_TEST_set_schedule_override _soUT_now st))
    = (true, true, false).
Proof. repeat split. Qed.

(** C8, as amended.  When [max(30, G + LEARNED_ON_PERIOD_M / 2)] is at
    most 171, so that both constants fit their [uint8_t]:
    [PREWARM_MINS] is that maximum, [PREPREWARM_MINS] is
    [3 * (PREWARM_MINS / 2)] with the halving rounded down before the
    multiplication, [PREPREWARM_MINS >= PREWARM_MINS], and
    [PREPREWARM_MINS = 3 * PREWARM_MINS / 2] when [PREWARM_MINS] is
    even. *)
Theorem derived_prewarm_constants :
  Z.max 30 (G + LEARNED_ON_PERIOD_M cfg / 2) <= 171 ->
  PREWARM = Z.max 30 (G + LEARNED_ON_PERIOD_M cfg / 2) /\
  PREPREWARM_MINS cfg = 3 * (PREWARM / 2) /\
  PREWARM <= PREPREWARM_MINS cfg /\
  (PREWARM mod 2 = 0 -> PREPREWARM_MINS cfg = 3 * PREWARM / 2).
Proof.
  intros Hfit.
  assert (PREWARM = Z.max 30 (G + LEARNED_ON_PERIOD_M cfg / 2)) as EP
    by (unfold PREWARM_MINS; apply to_uint8_small; lia).
  assert (30 <= PREWARM <= 171) as HP by lia.
  pose proof (Z.div_mod PREWARM 2) as Hd.
  pose proof (Z.mod_pos_bound PREWARM 2) as Hr.
  assert (PREPREWARM_MINS cfg = 3 * (PREWARM / 2)) as EPP
    by (unfold PREPREWARM_MINS; apply to_uint8_small; lia).
  repeat split; try assumption; try lia.
  intros Heven. rewrite EPP.
  replace (3 * PREWARM) with (3 * (PREWARM / 2) * 2) by lia.
  rewrite Z.div_mul by lia. reflexivity.
Qed.

(** C9.  For every slot, a value of [getSimpleScheduleOn] other than the
    sentinel lies in [0, MINS_PER_DAY), and so does a value of
    [getSimpleScheduleOff] other than the sentinel; the sum
    [getSimpleScheduleOff] forms before its single conditional
    subtraction is below [2 * MINS_PER_DAY]. *)
Theorem schedule_times_within_day st which :
  1 <= G <= MINS_PER_DAY ->
  (getSimpleScheduleOn cfg st which <> INVALID ->
   0 <= getSimpleScheduleOn cfg st which < MINS_PER_DAY) /\
  (getSimpleScheduleOff cfg st which <> INVALID ->
   0 <= getSimpleScheduleOff cfg st which < MINS_PER_DAY) /\
  (getSimpleScheduleOn cfg st which <> INVALID ->
   getSimpleScheduleOn cfg st which + PREWARM + onTime cfg st
     < 2 * MINS_PER_DAY).
Proof.
  intros HG. split; [|split].
  - intros Hv. destruct (getSimpleScheduleOn_cases st which HG); tauto.
  - intros Hv.
    destruct (Z.eq_dec (getSimpleScheduleOn cfg st which) INVALID) as [E|Hon].
    + now rewrite getSimpleScheduleOff_invalid in Hv.
    + rewrite getSimpleScheduleOff_valid by assumption.
      apply Z.mod_pos_bound. reflexivity.
  - intros Hv. apply getSimpleScheduleOff_sum_bound; assumption.
Qed.

(** C10.  [setSimpleSchedule m k] and [clearSimpleSchedule k] change no
    persisted byte other than the one at
    [V0P2BASE_EE_START_SIMPLE_SCHEDULE0_ON + k]: every other address
    reads as before, and for every other slot [j] the result of
    [getSimpleScheduleOn j] is the same before and after the call. *)
Theorem set_clear_frame st m k j p :
  j <> k ->
  p <> slot_addr k ->
  (eeprom_read_byte (eeprom (snd (setSimpleSchedule cfg m k st))) p =
     eeprom_read_byte (eeprom st) p /\
   eeprom_read_byte (eeprom (clearSimpleSchedule cfg k st)) p =
     eeprom_read_byte (eeprom st) p) /\
  (getSimpleScheduleOn cfg (snd (setSimpleSchedule cfg m k st)) j =
     getSimpleScheduleOn cfg st j /\
   getSimpleScheduleOn cfg (clearSimpleSchedule cfg k st) j =
     getSimpleScheduleOn cfg st j).
Proof.
  intros Hj Hp. split; split.
  - now apply stored_frame_set.
  - now apply stored_frame_clear.
  - apply getSimpleScheduleOn_ext. unfold stored.
    apply stored_frame_set. lia.
  - apply getSimpleScheduleOn_ext. unfold stored.
    apply stored_frame_clear. lia.
Qed.

End Properties.

(** ** The properties at concrete builds and states *)

(** Granularity 10 with a 10 minute on-period: the pre-warm is 30, and
    slot 0 with the anchor 00:20 is on from 23:50 (1430) to 00:30 (30). *)
Lemma isAnyScheduleOnWARMNow_wrapped_window_witness :
  isAnyScheduleOnWARMNow (build 10 10 10)
    (at_minute (state_at (slot0_only 2) 0) 1435) = true /\
  isAnyScheduleOnWARMNow (build 10 10 10)
    (at_minute (state_at (slot0_only 2) 0) 10) = false /\
  isAnyScheduleOnWARMNow (build 10 10 10)
    (at_minute (state_at (slot0_only 2) 0) 100) = false.
Proof.
  apply (isAnyScheduleOnWARMNow_wrapped_window
           (build 10 10 10) (state_at (slot0_only 2) 0) 0).
  - concrete.
  - reflexivity.
  - concrete.
  - vm_compute. reflexivity.
  - vm_compute. reflexivity.
  - intros j Hj. unfold getSimpleScheduleOn.
    destruct (MAX_SIMPLE_SCHEDULES (build 10 10 10) <=? j); [reflexivity|].
    unfold eeprom_read_byte, state_at, slot0_only, build. cbn [eeprom
      V0P2BASE_EE_START_SIMPLE_SCHEDULE0_ON].
    rewrite lookup_singleton_ne by lia. reflexivity.
Defined.

(** The same defect in the reference build: slot 0 with the anchor 23:12
    and the 90 minute on-period of a target that is neither eco nor
    comfort is on from 22:36 (1356) to 00:42 (42); the query is true at
    23:20 and false at 00:05. *)
Lemma isAnyScheduleOnWARMNow_reference_build :
  getSimpleScheduleOn reference_config (state_at (slot0_only 232) 0) 0
    = 1356 /\
  getSimpleScheduleOff reference_config (state_at (slot0_only 232) 0) 0
    = 42 /\
  isAnyScheduleOnWARMNow reference_config (state_at (slot0_only 232) 1400)
    = true /\
  isAnyScheduleOnWARMNow reference_config (state_at (slot0_only 232) 5)
    = false.
Proof. repeat split. Qed.

Lemma setSimpleSchedule_getSimpleScheduleOn_roundtrip_witness :
  fst (setSimpleSchedule reference_config 1439 1 (state_at ∅ 0)) = true /\
  getSimpleScheduleOn reference_config
    (snd (setSimpleSchedule reference_config 1439 1 (state_at ∅ 0))) 1 =
    1398.
Proof.
  apply (setSimpleSchedule_getSimpleScheduleOn_roundtrip
           reference_config (state_at ∅ 0) 1439 1); concrete.
Defined.

Lemma getSimpleScheduleOn_windback_witness :
  getSimpleScheduleOn (build 10 60 120) (state_at (slot0_only 143) 0) 0 =
    1390.
Proof.
  apply (getSimpleScheduleOn_windback
           (build 10 60 120) (state_at (slot0_only 143) 0) 0);
    try concrete; vm_compute; reflexivity.
Defined.

(** The anchor 1430 with a pre-warm of 40 does not give 10. *)
Lemma getSimpleScheduleOn_anchor_1430_not_10 :
  ~ (PREWARM_MINS (build 10 60 120) = 40 ->
     SIMPLE_SCHEDULE_GRANULARITY_MINS (build 10 60 120)
       * stored (build 10 60 120) (state_at (slot0_only 143) 0) 0 = 1430 ->
     getSimpleScheduleOn (build 10 60 120)
       (state_at (slot0_only 143) 0) 0 = 10).
Proof.
  intros H. specialize (H eq_refl eq_refl). vm_compute in H. discriminate.
Qed.

Lemma getSimpleScheduleOff_spec_witness :
  getSimpleScheduleOff reference_config (state_at (slot0_only 232) 0) 0 =
    (getSimpleScheduleOn reference_config (state_at (slot0_only 232) 0) 0
       + PREWARM_MINS reference_config
       + onTime reference_config (state_at (slot0_only 232) 0))
      mod MINS_PER_DAY.
Proof.
  apply (getSimpleScheduleOff_spec
           reference_config (state_at (slot0_only 232) 0) 0).
  - concrete.
  - vm_compute. discriminate.
Defined.

Lemma setSimpleSchedule_rejects_iff_witness :
  fst (setSimpleSchedule reference_config 100 0 (state_at ∅ 0)) = true /\
  stored reference_config
    (snd (setSimpleSchedule reference_config 100 0 (state_at ∅ 0))) 0 =
    100 / 6.
Proof.
  apply (setSimpleSchedule_rejects_iff
           reference_config (state_at ∅ 0) 100 0).
  - concrete.
  - concrete.
  - cbn. unfold MINS_PER_DAY. lia.
Defined.

Lemma getSimpleScheduleOn_invalid_witness :
  getSimpleScheduleOn reference_config (state_at ∅ 0) 0 = INVALID /\
  INVALID = 65535.
Proof.
  apply (getSimpleScheduleOn_invalid reference_config (state_at ∅ 0) 0).
  right; right. split; concrete.
Defined.

Lemma derived_prewarm_constants_witness :
  PREWARM_MINS reference_config = 36 /\
  PREPREWARM_MINS reference_config = 54.
Proof.
  destruct (derived_prewarm_constants reference_config) as (E1 & E2 & _).
  - concrete.
  - rewrite E2, E1. split; reflexivity.
Defined.

(** An on-period of 50 with the granularity 6 gives the odd pre-warm 31,
    for which the setback is 3 * 15 = 45 and not 93 / 2 = 46. *)
Lemma derived_prewarm_constants_differ :
  PREWARM_MINS (build 6 50 120) = 31 /\
  PREPREWARM_MINS (build 6 50 120) = 45 /\
  PREPREWARM_MINS (build 6 50 120) <> 3 * PREWARM_MINS (build 6 50 120) / 2.
Proof.
  repeat split. vm_compute. discriminate.
Qed.

Lemma schedule_times_within_day_witness :
  0 <= getSimpleScheduleOn reference_config
         (state_at (slot0_only 232) 0) 0 < MINS_PER_DAY.
Proof.
  apply (schedule_times_within_day
           reference_config (state_at (slot0_only 232) 0) 0).
  - concrete.
  - vm_compute. discriminate.
Defined.

Lemma set_clear_frame_witness :
  getSimpleScheduleOn reference_config
    (snd (setSimpleSchedule reference_config 100 0
            (state_at (slot0_only 232) 0))) 1 =
    getSimpleScheduleOn reference_config (state_at (slot0_only 232) 0) 1 /\
  getSimpleScheduleOn reference_config
    (clearSimpleSchedule reference_config 0
       (state_at (slot0_only 232) 0)) 1 =
    getSimpleScheduleOn reference_config (state_at (slot0_only 232) 0) 1.
Proof.
  apply (set_clear_frame reference_config
           (state_at (slot0_only 232) 0) 100 0 1 9).
  - lia.
  - concrete.
Defined.

(** ** Further properties of the schedule store and the queries *)

Section Further.

Variable cfg : Config.

Abbreviation G := (SIMPLE_SCHEDULE_GRANULARITY_MINS cfg).
Abbreviation SLOTS := (MAX_SIMPLE_SCHEDULES cfg).
Abbreviation slot_addr which :=
  (V0P2BASE_EE_START_SIMPLE_SCHEDULE0_ON cfg + which).
Abbreviation MAXC := (MAX_COMPRESSED_MINS_AFTER_MIDNIGHT cfg).
Abbreviation PREWARM := (PREWARM_MINS cfg).

(** The unprogrammed byte is never a valid compressed time. *)
Lemma MAX_COMPRESSED_below_unprogrammed :
  1 <= G <= MINS_PER_DAY -> MAXC < 255.
Proof.
  intros HG.
  assert (MAXC <= 255) by apply to_uint8_range.
  destruct (Z.eq_dec MAXC 255) as [E|Hne]; [exfalso|lia].
  unfold MAX_COMPRESSED_MINS_AFTER_MIDNIGHT, to_uint8 in E.
  set (q := MINS_PER_DAY / G) in *.
  assert (1 <= q) by (apply Z.div_le_lower_bound; lia).
  assert (G * q <= MINS_PER_DAY) by (apply Z.mul_div_le; lia).
  assert (MINS_PER_DAY < G * (q + 1)).
  { unfold q. pose proof (Z.mod_pos_bound MINS_PER_DAY G).
    pose proof (Z.div_mod MINS_PER_DAY G). lia. }
  pose proof (Z.div_mod (q - 1) 256) as Hd. rewrite E in Hd.
  unfold MINS_PER_DAY in *.
  assert (0 <= (q - 1) / 256) by (apply Z.div_pos; lia).
  assert ((q - 1) / 256 < 6) by (apply Z.div_lt_upper_bound; nia).
  assert ((q - 1) / 256 = 0 \/ (q - 1) / 256 = 1 \/ (q - 1) / 256 = 2 \/
          (q - 1) / 256 = 3 \/ (q - 1) / 256 = 4 \/ (q - 1) / 256 = 5)
    as Hcase by lia.
  destruct Hcase as [C|[C|[C|[C|[C|C]]]]]; rewrite C in Hd; nia.
Qed.

(** A slot that answers with a time is in range and programmed. *)
Lemma getSimpleScheduleOn_valid_inv st which :
  getSimpleScheduleOn cfg st which <> INVALID ->
  which < SLOTS /\ stored cfg st which <= MAXC.
Proof.
  intros Hv.
  destruct (Z.lt_ge_cases which SLOTS) as [Hw|Hw].
  - destruct (Z.le_gt_cases (stored cfg st which) MAXC) as [Hs|Hs];
      [now split|].
    exfalso. apply Hv. apply getSimpleScheduleOn_rejects. right. lia.
  - exfalso. apply Hv. apply getSimpleScheduleOn_rejects. now left.
Qed.

Lemma getSimpleScheduleOn_programmed_range st which :
  1 <= G <= MINS_PER_DAY ->
  which < SLOTS ->
  stored cfg st which <= MAXC ->
  0 <= getSimpleScheduleOn cfg st which < MINS_PER_DAY.
Proof.
  intros HG Hw Hs.
  pose proof (stored_range cfg st which) as Hb.
  assert (0 <= G * stored cfg st which <= MINS_PER_DAY - G) as Ha
    by (apply anchor_in_day; lia).
  pose proof (PREWARM_MINS_range cfg) as HP.
  destruct (LEARN_BUTTON_AVAILABLE cfg) eqn:HL.
  - rewrite getSimpleScheduleOn_programmed by assumption.
    unfold MINS_PER_DAY in *.
    destruct (Z.ltb_spec (G * stored cfg st which) PREWARM); lia.
  - rewrite getSimpleScheduleOn_plain by assumption. lia.
Qed.

Lemma getSimpleScheduleOn_valid_iff st which :
  1 <= G <= MINS_PER_DAY ->
  getSimpleScheduleOn cfg st which <> INVALID <->
  which < SLOTS /\ stored cfg st which <= MAXC.
Proof.
  intros HG. split; [apply getSimpleScheduleOn_valid_inv|].
  intros [Hw Hs].
  pose proof (getSimpleScheduleOn_programmed_range st which HG Hw Hs).
  rewrite INVALID_value. unfold MINS_PER_DAY in *. lia.
Qed.

Lemma getSimpleScheduleOff_nonneg st which :
  0 <= getSimpleScheduleOff cfg st which <= 65535.
Proof.
  unfold getSimpleScheduleOff, to_uint16.
  repeat match goal with |- context [if ?c then _ else _] => destruct c end;
    try (rewrite INVALID_value; lia);
    match goal with |- 0 <= ?a mod 65536 <= _ =>
      pose proof (Z.mod_pos_bound a 65536); lia end.
Qed.

(** The scan of [isAnySimpleScheduleSet] finds a programmed slot exactly
    when there is one among the slots it visits. *)
Lemma anySlotProgrammed_iff e slots :
  anySlotProgrammed cfg e slots = true <->
  exists which, which ∈ slots /\ eeprom_read_byte e (slot_addr which) <= MAXC.
Proof.
  induction slots as [|w rest IH]; simpl.
  - split; [discriminate|]. intros (which & Hin & _).
    now apply elem_of_nil in Hin.
  - destruct (Z.leb_spec (eeprom_read_byte e (slot_addr w)) MAXC) as [Hle|Hgt].
    + split; [|reflexivity]. intros _. exists w. split;
        [apply list_elem_of_here|assumption].
    + rewrite IH. split.
      * intros (which & Hin & Hle). exists which. split;
          [now apply list_elem_of_further|assumption].
      * intros (which & Hin & Hle). apply elem_of_cons in Hin.
        destruct Hin as [->|Hin]; [lia|]. now exists which.
Qed.

(** The loop of the two WARM queries answers yes exactly when one of the
    visited slots has started and its end, moved a day on when it is
    numerically before the start, is still ahead. *)
Lemma anyScheduleCovers_iff st mm slots :
  anyScheduleCovers cfg st mm slots = true <->
  exists which, which ∈ slots /\
    getSimpleScheduleOn cfg st which <= mm /\
    mm < (if getSimpleScheduleOff cfg st which
               <? getSimpleScheduleOn cfg st which
          then to_uint16 (getSimpleScheduleOff cfg st which + MINS_PER_DAY)
          else getSimpleScheduleOff cfg st which).
Proof.
  induction slots as [|w rest IH]; simpl.
  - split; [discriminate|]. intros (which & Hin & _).
    now apply elem_of_nil in Hin.
  - assert (forall P : Z -> Prop, ~ P w ->
              ((exists which, which ∈ rest /\ P which) <->
               (exists which, which ∈ w :: rest /\ P which))) as Hskip.
    { intros P Hw. split.
      - intros (which & Hin & HP). exists which. split;
          [now apply list_elem_of_further|assumption].
      - intros (which & Hin & HP). apply elem_of_cons in Hin.
        destruct Hin as [->|Hin]; [contradiction|]. now exists which. }
    destruct (Z.ltb_spec mm (getSimpleScheduleOn cfg st w)) as [Hlt|Hge].
    + rewrite IH. apply (Hskip (fun which => _ /\ _)). lia.
    + match goal with |- (if ?c then _ else _) = true <-> _ =>
        destruct c eqn:Hc end.
      * split; [|reflexivity]. intros _. exists w.
        apply Z.ltb_lt in Hc.
        split; [apply list_elem_of_here|]. split; assumption.
      * rewrite IH. apply Z.ltb_ge in Hc.
        apply (Hskip (fun which => _ /\ _)). lia.
Qed.

(** X1.  Once [clearSimpleSchedule which] has been called the slot has
    neither an on nor an off time: both [getSimpleScheduleOn which] and
    [getSimpleScheduleOff which] return the invalid sentinel, whatever
    the slot held before. *)
Theorem clearSimpleSchedule_then_invalid st which :
  1 <= G <= MINS_PER_DAY ->
  getSimpleScheduleOn cfg (clearSimpleSchedule cfg which st) which = INVALID /\
  getSimpleScheduleOff cfg (clearSimpleSchedule cfg which st) which = INVALID.
Proof.
  intros HG.
  assert (getSimpleScheduleOn cfg (clearSimpleSchedule cfg which st) which
          = INVALID) as E.
  { apply getSimpleScheduleOn_rejects.
    destruct (Z.le_gt_cases SLOTS which) as [Hw|Hw]; [now left|right].
    unfold stored, clearSimpleSchedule.
    destruct (Z.leb_spec SLOTS which); [lia|]. cbn [with_eeprom eeprom].
    rewrite eeprom_read_erase_eq.
    apply MAX_COMPRESSED_below_unprogrammed. assumption. }
  split; [assumption|]. now apply getSimpleScheduleOff_invalid.
Qed.

(** X2.  Without test override, [isAnySimpleScheduleSet] is true exactly
    when some slot from 0 up to [MAX_SIMPLE_SCHEDULES] has a valid on
    time, that is when [getSimpleScheduleOn] differs from the sentinel
    for one of them. *)
Theorem isAnySimpleScheduleSet_iff st :
  1 <= G <= MINS_PER_DAY ->
  SLOTS <= 255 ->
  _soUT_override st = _soUT_normal ->
  (isAnySimpleScheduleSet cfg st = true <->
   exists which, 0 <= which /\ getSimpleScheduleOn cfg st which <> INVALID).
Proof.
  intros HG _ Hov. unfold isAnySimpleScheduleSet. rewrite Hov.
  rewrite anySlotProgrammed_iff. unfold schedule_slots.
  split; intros (which & H1 & H2).
  - apply elem_of_seqZ in H1. exists which. split; [lia|].
    apply getSimpleScheduleOn_valid_iff; [assumption|].
    split; [lia|exact H2].
  - apply getSimpleScheduleOn_valid_iff in H2; [|assumption].
    exists which. split; [apply elem_of_seqZ; lia|apply H2].
Qed.

(** X3.  After a call of [setSimpleSchedule] with valid parameters, in a
    build whose granularity is at least 6 and divides the minutes of a
    day, [isAnySimpleScheduleSet] returns true (no test override). *)
Theorem setSimpleSchedule_then_isAnySimpleScheduleSet st m k :
  6 <= G ->
  MINS_PER_DAY mod G = 0 ->
  SLOTS <= 255 ->
  _soUT_override st = _soUT_normal ->
  0 <= k < SLOTS ->
  0 <= m < MINS_PER_DAY ->
  isAnySimpleScheduleSet cfg (snd (setSimpleSchedule cfg m k st)) = true.
Proof.
  intros HG Hdiv _ Hov Hk Hm.
  pose proof (stored_after_set cfg st m k HG (proj2 Hk) Hm) as Hst.
  pose proof (compressed_fits cfg m HG Hm) as Hc.
  assert (m / G <= MAXC) as Hmax.
  { unfold MAX_COMPRESSED_MINS_AFTER_MIDNIGHT.
    assert (MINS_PER_DAY = G * (MINS_PER_DAY / G)) as Hq
      by (apply Z.div_exact; lia).
    assert (m / G < MINS_PER_DAY / G)
      by (apply Z.div_lt_upper_bound; lia).
    assert (MINS_PER_DAY / G <= 240)
      by (unfold MINS_PER_DAY; apply Z.lt_succ_r;
          apply Z.div_lt_upper_bound; lia).
    rewrite to_uint8_small; lia. }
  unfold isAnySimpleScheduleSet.
  rewrite setSimpleSchedule_accepts by lia. cbn [snd with_eeprom _soUT_override].
  rewrite Hov. apply anySlotProgrammed_iff. exists k. split.
  - unfold schedule_slots. apply elem_of_seqZ. lia.
  - rewrite setSimpleSchedule_accepts in Hst by lia.
    unfold stored in Hst. cbn [snd with_eeprom eeprom] in *.
    rewrite Hst. exact Hmax.
Qed.

(** X4.  After [clearSimpleSchedule k], [isAnySimpleScheduleSet] is true
    exactly when a slot other than [k] is programmed; clearing the only
    programmed slot leaves no schedule set (no test override). *)
Theorem clearSimpleSchedule_then_isAnySimpleScheduleSet st k :
  1 <= G <= MINS_PER_DAY ->
  SLOTS <= 255 ->
  _soUT_override st = _soUT_normal ->
  (isAnySimpleScheduleSet cfg (clearSimpleSchedule cfg k st) = true <->
   exists j, 0 <= j < SLOTS /\ j <> k /\ stored cfg st j <= MAXC).
Proof.
  intros HG _ Hov.
  pose proof (MAX_COMPRESSED_below_unprogrammed HG) as Hmax.
  assert (_soUT_override (clearSimpleSchedule cfg k st) = _soUT_normal)
    as Hov'.
  { unfold clearSimpleSchedule. destruct (SLOTS <=? k); assumption. }
  unfold isAnySimpleScheduleSet. rewrite Hov'.
  rewrite anySlotProgrammed_iff. unfold schedule_slots.
  split.
  - intros (j & Hin & Hle). apply elem_of_seqZ in Hin.
    exists j. split; [lia|].
    destruct (Z.eq_dec j k) as [->|Hne].
    + exfalso. unfold clearSimpleSchedule in Hle.
      destruct (Z.leb_spec SLOTS k); [lia|]. cbn [with_eeprom eeprom] in Hle.
      rewrite eeprom_read_erase_eq in Hle. lia.
    + split; [assumption|]. unfold stored.
      rewrite stored_frame_clear in Hle by lia. exact Hle.
  - intros (j & Hj & Hne & Hle). exists j.
    split; [apply elem_of_seqZ; lia|].
    rewrite stored_frame_clear by lia. exact Hle.
Qed.

(** X5.  Without test override and with the clock inside the day,
    [isAnyScheduleOnWARMNow] is true exactly when some slot has an on
    time not after the current minute and either an off time after the
    current minute or an off time numerically before its on time.  So
    of a window that wraps midnight only the part before midnight is
    matched. *)
Theorem isAnyScheduleOnWARMNow_iff st :
  SLOTS <= 255 ->
  _soUT_override st = _soUT_normal ->
  0 <= minutesSinceMidnightLT st < MINS_PER_DAY ->
  (isAnyScheduleOnWARMNow cfg st = true <->
   exists which, 0 <= which < SLOTS /\
     getSimpleScheduleOn cfg st which <= minutesSinceMidnightLT st /\
     (minutesSinceMidnightLT st < getSimpleScheduleOff cfg st which \/
      getSimpleScheduleOff cfg st which < getSimpleScheduleOn cfg st which)).
Proof.
  intros _ Hov Hnow. unfold isAnyScheduleOnWARMNow. rewrite Hov.
  unfold MINS_PER_DAY in *.
  rewrite to_uint16_small by lia. rewrite anyScheduleCovers_iff.
  unfold schedule_slots, MINS_PER_DAY.
  split; intros (which & Hin & Hs & He); exists which.
  - apply elem_of_seqZ in Hin. split; [lia|]. split; [assumption|].
    destruct (Z.ltb_spec (getSimpleScheduleOff cfg st which)
                (getSimpleScheduleOn cfg st which)); [now right|now left].
  - split; [apply elem_of_seqZ; lia|]. split; [assumption|].
    pose proof (getSimpleScheduleOff_nonneg st which) as Hoff.
    destruct (Z.ltb_spec (getSimpleScheduleOff cfg st which)
                (getSimpleScheduleOn cfg st which)) as [Hw|Hw].
    + rewrite to_uint16_small by lia. lia.
    + lia.
Qed.

(** X6.  Whenever [isAnyScheduleOnWARMNow] or [isAnyScheduleOnWARMSoon]
    is true, [isAnySimpleScheduleSet] is true as well, with or without
    test override and whatever the clock reads. *)
Theorem warm_query_needs_schedule st :
  SLOTS <= 255 ->
  isAnyScheduleOnWARMNow cfg st = true \/
  isAnyScheduleOnWARMSoon cfg st = true ->
  isAnySimpleScheduleSet cfg st = true.
Proof.
  intros _ H.
  assert (forall mm, mm <= 65535 ->
            anyScheduleCovers cfg st mm (schedule_slots cfg) = true ->
            anySlotProgrammed cfg (eeprom st) (schedule_slots cfg) = true)
    as Hloop.
  { intros mm Hmm Hc. apply anyScheduleCovers_iff in Hc.
    destruct Hc as (which & Hin & Hs & He).
    apply anySlotProgrammed_iff. exists which. split; [assumption|].
    apply (getSimpleScheduleOn_valid_inv st which). intros E.
    rewrite (getSimpleScheduleOff_invalid cfg st which E), E in He.
    rewrite Z.ltb_irrefl in He. rewrite E in Hs.
    rewrite INVALID_value in Hs, He. lia. }
  assert (forall x, to_uint16 x <= 65535) as Hu.
  { intros x. unfold to_uint16. pose proof (Z.mod_pos_bound x 65536). lia. }
  unfold isAnyScheduleOnWARMNow, isAnyScheduleOnWARMSoon,
    isAnySimpleScheduleSet in *.
  destruct (_soUT_override st); destruct H as [H|H];
    try reflexivity; try discriminate.
  - apply (Hloop _ (Hu _) H).
  - revert H. apply Hloop.
    destruct (MINS_PER_DAY <=? _); apply Hu.
Qed.

(** X7.  Without test override and with the clock inside the day,
    [isAnyScheduleOnWARMSoon] gives the answer [isAnyScheduleOnWARMNow]
    would give [PREPREWARM_MINS] minutes later, the later minute taken
    modulo the minutes of a day. *)
Theorem isAnyScheduleOnWARMSoon_lookahead st :
  _soUT_override st = _soUT_normal ->
  0 <= minutesSinceMidnightLT st < MINS_PER_DAY ->
  isAnyScheduleOnWARMSoon cfg st =
    isAnyScheduleOnWARMNow cfg
      (at_minute st
         ((minutesSinceMidnightLT st + PREPREWARM_MINS cfg)
            mod MINS_PER_DAY)).
Proof.
  intros Hov Hnow.
  unfold isAnyScheduleOnWARMSoon, isAnyScheduleOnWARMNow.
  cbn [at_minute _soUT_override minutesSinceMidnightLT]. rewrite Hov.
  rewrite anyScheduleCovers_at_minute.
  assert (0 <= PREPREWARM_MINS cfg <= 255) as HP by apply to_uint8_range.
  set (t := minutesSinceMidnightLT st + PREPREWARM_MINS cfg).
  pose proof (Z.mod_pos_bound t MINS_PER_DAY eq_refl) as Hm.
  unfold MINS_PER_DAY in *.
  rewrite (to_uint16_small t) by lia.
  rewrite (to_uint16_small (t mod 1440)) by lia.
  f_equal.
  destruct (Z.leb_spec 1440 t).
  - rewrite to_uint16_small by lia.
    apply Z.mod_unique with (q := 1); lia.
  - symmetry. apply Z.mod_small. lia.
Qed.

(** X8.  When the two configured on-periods satisfy
    [0 <= LEARNED_ON_PERIOD_M <= LEARNED_ON_PERIOD_COMFORT_M <= 255],
    [onTime] lies between them for every WARM target, and it is the
    shorter period for an eco target. *)
Theorem onTime_between st :
  0 <= LEARNED_ON_PERIOD_M cfg <= LEARNED_ON_PERIOD_COMFORT_M cfg ->
  LEARNED_ON_PERIOD_COMFORT_M cfg <= 255 ->
  LEARNED_ON_PERIOD_M cfg <= onTime cfg st <= LEARNED_ON_PERIOD_COMFORT_M cfg /\
  (isEcoTemperature cfg (getWARMTargetC st) = true ->
   onTime cfg st = LEARNED_ON_PERIOD_M cfg).
Proof.
  intros HL HC. unfold onTime.
  assert (LEARNED_ON_PERIOD_M cfg
            <= (LEARNED_ON_PERIOD_M cfg + LEARNED_ON_PERIOD_COMFORT_M cfg) / 2
            <= LEARNED_ON_PERIOD_COMFORT_M cfg) as Hmid.
  { split.
    - apply Z.div_le_lower_bound; lia.
    - apply Z.div_le_upper_bound; lia. }
  destruct (Z.eqb_spec (LEARNED_ON_PERIOD_M cfg)
              (LEARNED_ON_PERIOD_COMFORT_M cfg)).
  - rewrite to_uint8_small by lia. split; [lia|reflexivity].
  - destruct (isEcoTemperature cfg (getWARMTargetC st)).
    + rewrite to_uint8_small by lia. split; [lia|reflexivity].
    + split; [|discriminate].
      destruct (isComfortTemperature cfg (getWARMTargetC st));
        rewrite to_uint8_small by lia; lia.
Qed.

(** X9.  In a build with the learn button the pre-warm cancels in the
    off time: for a programmed slot [getSimpleScheduleOff] is the
    decoded anchor plus [onTime()], modulo the minutes of a day. *)
Theorem getSimpleScheduleOff_from_anchor st which :
  1 <= G <= MINS_PER_DAY ->
  LEARN_BUTTON_AVAILABLE cfg = true ->
  which < SLOTS ->
  stored cfg st which <= MAXC ->
  getSimpleScheduleOff cfg st which =
    (G * stored cfg st which + onTime cfg st) mod MINS_PER_DAY.
Proof.
  intros HG HL Hw Hs.
  pose proof (getSimpleScheduleOn_programmed_range st which HG Hw Hs) as Hr.
  rewrite getSimpleScheduleOff_valid;
    [|assumption|rewrite INVALID_value; unfold MINS_PER_DAY in *; lia].
  rewrite getSimpleScheduleOn_programmed by assumption.
  destruct (G * stored cfg st which <? PREWARM).
  - replace (G * stored cfg st which + MINS_PER_DAY - PREWARM + PREWARM
               + onTime cfg st)
      with (G * stored cfg st which + onTime cfg st + 1 * MINS_PER_DAY)
      by lia.
    apply Z_mod_plus_full.
  - f_equal. lia.
Qed.

(** X10.  A set schedule has a WARM window of [PREWARM_MINS + onTime()]
    minutes: whenever [getSimpleScheduleOn] is not the sentinel, the off
    time is that many minutes after the on time, modulo the minutes of a
    day. *)
Theorem schedule_window_length st which :
  1 <= G <= MINS_PER_DAY ->
  getSimpleScheduleOn cfg st which <> INVALID ->
  (getSimpleScheduleOff cfg st which - getSimpleScheduleOn cfg st which)
    mod MINS_PER_DAY = PREWARM + onTime cfg st.
Proof.
  intros HG Hv.
  pose proof (getSimpleScheduleOff_sum_bound cfg st which HG Hv) as Hsum.
  pose proof (PREWARM_MINS_range cfg) as HP.
  pose proof (onTime_range cfg st) as HT.
  rewrite getSimpleScheduleOff_valid by assumption.
  set (s := getSimpleScheduleOn cfg st which) in *.
  set (w := PREWARM + onTime cfg st) in *.
  replace (s + PREWARM + onTime cfg st) with (s + w) in * by (unfold w; lia).
  pose proof (Z.div_mod (s + w) MINS_PER_DAY) as Hd.
  pose proof (Z.mod_pos_bound (s + w) MINS_PER_DAY eq_refl) as Hm.
  unfold MINS_PER_DAY in *.
  symmetry. apply Z.mod_unique with (q := - ((s + w) / 1440)); lia.
Qed.

(** X11.  In a build without the learn button no pre-warm is applied:
    after [setSimpleSchedule m k] with valid parameters
    [getSimpleScheduleOn k] returns [m] rounded down to the granularity,
    less than one granule below [m]. *)
Theorem setSimpleSchedule_getSimpleScheduleOn_plain_build st m k :
  LEARN_BUTTON_AVAILABLE cfg = false ->
  6 <= G ->
  MINS_PER_DAY mod G = 0 ->
  0 <= k < SLOTS ->
  0 <= m < MINS_PER_DAY ->
  getSimpleScheduleOn cfg (snd (setSimpleSchedule cfg m k st)) k
    = G * (m / G) /\
  m - G < G * (m / G) <= m.
Proof.
  intros HL HG Hdiv Hk Hm.
  assert (G <= MINS_PER_DAY) as HG'.
  { unfold MINS_PER_DAY in *.
    destruct (Z.le_gt_cases G 1440); [assumption|].
    rewrite Z.mod_small in Hdiv by lia. lia. }
  pose proof (stored_after_set cfg st m k HG (proj2 Hk) Hm) as Hst.
  pose proof (compressed_fits cfg m HG Hm) as Hc.
  assert (m / G <= MAXC) as Hmax.
  { unfold MAX_COMPRESSED_MINS_AFTER_MIDNIGHT.
    assert (MINS_PER_DAY = G * (MINS_PER_DAY / G)) as Hq
      by (apply Z.div_exact; lia).
    assert (m / G < MINS_PER_DAY / G)
      by (apply Z.div_lt_upper_bound; lia).
    assert (MINS_PER_DAY / G <= 240)
      by (unfold MINS_PER_DAY; apply Z.lt_succ_r;
          apply Z.div_lt_upper_bound; lia).
    rewrite to_uint8_small; lia. }
  split.
  - rewrite getSimpleScheduleOn_plain; rewrite ?Hst;
      [reflexivity|lia|assumption|lia|assumption].
  - pose proof (Z.div_mod m G) as Hd.
    pose proof (Z.mod_pos_bound m G) as Hr. lia.
Qed.

End Further.

(** ** The further properties at concrete builds and states *)

Lemma clearSimpleSchedule_then_invalid_witness :
  getSimpleScheduleOn reference_config
    (clearSimpleSchedule reference_config 0 (state_at (slot0_only 232) 0)) 0
    = INVALID /\
  getSimpleScheduleOff reference_config
    (clearSimpleSchedule reference_config 0 (state_at (slot0_only 232) 0)) 0
    = INVALID.
Proof.
  apply (clearSimpleSchedule_then_invalid
           reference_config (state_at (slot0_only 232) 0) 0).
  concrete.
Defined.

Lemma isAnySimpleScheduleSet_iff_witness :
  isAnySimpleScheduleSet reference_config (state_at (slot0_only 232) 0)
    = true.
Proof.
  apply (isAnySimpleScheduleSet_iff
           reference_config (state_at (slot0_only 232) 0)).
  - concrete.
  - concrete.
  - reflexivity.
  - exists 0. split; [lia|]. vm_compute. discriminate.
Defined.

Lemma setSimpleSchedule_then_isAnySimpleScheduleSet_witness :
  isAnySimpleScheduleSet reference_config
    (snd (setSimpleSchedule reference_config 100 0 (state_at ∅ 0))) = true.
Proof.
  apply (setSimpleSchedule_then_isAnySimpleScheduleSet
           reference_config (state_at ∅ 0) 100 0); concrete.
Defined.

Lemma clearSimpleSchedule_then_isAnySimpleScheduleSet_witness :
  isAnySimpleScheduleSet reference_config
    (clearSimpleSchedule reference_config 1
       (state_at (slot0_only 232) 0)) = true.
Proof.
  apply (clearSimpleSchedule_then_isAnySimpleScheduleSet
           reference_config (state_at (slot0_only 232) 0) 1).
  - concrete.
  - concrete.
  - reflexivity.
  - exists 0. split; [concrete|]. split; [lia|]. vm_compute. discriminate.
Defined.

Lemma isAnyScheduleOnWARMNow_iff_witness :
  isAnyScheduleOnWARMNow reference_config (state_at (slot0_only 232) 1400)
    = true.
Proof.
  apply (isAnyScheduleOnWARMNow_iff
           reference_config (state_at (slot0_only 232) 1400)).
  - concrete.
  - reflexivity.
  - concrete.
  - exists 0. split; [concrete|]. split.
    + vm_compute. discriminate.
    + right. vm_compute. reflexivity.
Defined.

Lemma warm_query_needs_schedule_witness :
  isAnySimpleScheduleSet reference_config (state_at (slot0_only 232) 1400)
    = true.
Proof.
  apply (warm_query_needs_schedule
           reference_config (state_at (slot0_only 232) 1400)).
  - concrete.
  - left. vm_compute. reflexivity.
Defined.

Lemma isAnyScheduleOnWARMSoon_lookahead_witness :
  isAnyScheduleOnWARMSoon reference_config (state_at (slot0_only 232) 1400) =
    isAnyScheduleOnWARMNow reference_config
      (at_minute (state_at (slot0_only 232) 1400)
         ((1400 + PREPREWARM_MINS reference_config) mod MINS_PER_DAY)).
Proof.
  apply (isAnyScheduleOnWARMSoon_lookahead
           reference_config (state_at (slot0_only 232) 1400)).
  - reflexivity.
  - concrete.
Defined.

Lemma onTime_between_witness :
  60 <= onTime reference_config (state_at ∅ 0) <= 120.
Proof.
  apply (onTime_between reference_config (state_at ∅ 0)); concrete.
Defined.

Lemma getSimpleScheduleOff_from_anchor_witness :
  getSimpleScheduleOff reference_config (state_at (slot0_only 232) 0) 0 =
    (6 * 232 + 90) mod 1440.
Proof.
  apply (getSimpleScheduleOff_from_anchor
           reference_config (state_at (slot0_only 232) 0) 0);
    first [concrete | vm_compute; discriminate].
Defined.

Lemma schedule_window_length_witness :
  (getSimpleScheduleOff reference_config (state_at (slot0_only 232) 0) 0
     - getSimpleScheduleOn reference_config (state_at (slot0_only 232) 0) 0)
    mod MINS_PER_DAY = 36 + 90.
Proof.
  apply (schedule_window_length
           reference_config (state_at (slot0_only 232) 0) 0).
  - concrete.
  - vm_compute. discriminate.
Defined.

Lemma setSimpleSchedule_getSimpleScheduleOn_plain_build_witness :
  getSimpleScheduleOn plain_build
    (snd (setSimpleSchedule plain_build 1439 1 (state_at ∅ 0))) 1 = 1434 /\
  1439 - 6 < 1434 <= 1439.
Proof.
  apply (setSimpleSchedule_getSimpleScheduleOn_plain_build
           plain_build (state_at ∅ 0) 1439 1); concrete.
Defined.

(** Without the learn button no pre-warm is subtracted: in the reference
    build compiled without it, 1439 set in slot 1 reads back as the
    rounded 1434 and not as 1434 less the pre-warm of 36. *)
Lemma setSimpleSchedule_getSimpleScheduleOn_without_prewarm :
  fst (setSimpleSchedule plain_build 1439 1 (state_at ∅ 0)) = true /\
  1439 / SIMPLE_SCHEDULE_GRANULARITY_MINS plain_build
    * SIMPLE_SCHEDULE_GRANULARITY_MINS plain_build = 1434 /\
  PREWARM_MINS plain_build = 36 /\
  getSimpleScheduleOn plain_build
    (snd (setSimpleSchedule plain_build 1439 1 (state_at ∅ 0))) 1 = 1434 /\
  getSimpleScheduleOn plain_build
    (snd (setSimpleSchedule plain_build 1439 1 (state_at ∅ 0))) 1
    <> 1434 - PREWARM_MINS plain_build.
Proof.
  repeat split. vm_compute. discriminate.
Qed.
